(** * publish.py: the release driver of Sunde.FluentMonads

    A shallow embedding of [src/publish.py] and the properties of its three
    functions [run_command], [get_latest_package] and [main].

    The script talks to the operating system only: it reads the process
    environment, starts shell commands, scans one directory and asks for the
    change time of the paths it finds.  The embedding threads an explicit
    operating-system state through the script, records every observable
    action in a trace, and lets [sys.exit] and an uncaught exception cut the
    rest of the script short. *)

From Stdlib Require Import ZArith Ascii String.
From stdpp Require Import gmap strings list.

Local Open Scope string_scope.
Local Open Scope Z_scope.

(** ** The operating system as the script sees it *)

(** What the script can observe of the machine it runs on.

    - [environ] is [os.environ];
    - [dotenv_values] is the dictionary python-dotenv parses from the [.env]
      file it finds (empty when there is none);
    - [dotenv_disabled] tells whether python-dotenv finds itself switched
      off (a truthy [PYTHON_DOTENV_DISABLED], in the versions that read it);
    - [scandir d] lists the entry names of directory [d] in the order the
      directory scan yields them (nothing for a path that is no directory);
    - [st_type p] is the kind of entry found at path [p];
    - [st_ctime p] is the number [os.path.getctime p] returns, and [None]
      where [os.stat] fails on [p] and raises [OSError]: a symbolic link
      that leads nowhere, an entry gone since the scan, a path that may not
      be looked at.  The floats of [st_ctime] are never NaN, hence totally
      ordered; [Z] stands for them. *)
Inductive file_type := Regular | Directory | Symlink | Special.

Record OS := {
  environ : gmap string string;
  dotenv_values : gmap string string;
  dotenv_disabled : bool;
  scandir : string → list string;
  st_type : string → file_type;
  st_ctime : string → option Z
}.

(** The external toolchain: [subprocess.run(command, shell=True)] blocks until
    the shell has finished, and then the machine is in a new state and the
    shell has left a return code. *)
Class Shell := subprocess_run : string → OS → Z * OS.

(** What an observer of the process sees, in order. *)
Inductive event :=
| EShell (command : string) (returncode : Z)
| EScan (directory : string)
| EPrint (message : string).

Record state := { os : OS; trace : list event }.

Definition emit (e : event) (s : state) : state :=
  {| os := os s; trace := trace s ++ [e] |}.

(** ** Python's control flow: a state monad with [sys.exit] *)

(** A statement either completes with a value, or leaves through
    [sys.exit(code)], or raises an exception that nothing catches. *)
Inductive result (A : Type) :=
| Ret (value : A)
| Exit (code : Z)
| Raise (exception : string).
Arguments Ret {A} value.
Arguments Exit {A} code.
Arguments Raise {A} exception.

Definition M (A : Type) : Type := state → result A * state.

Definition ret {A} (a : A) : M A := fun s => (Ret a, s).

Definition bind {A B} (m : M A) (k : A → M B) : M B :=
  fun s =>
    match m s with
    | (Ret a, s') => k a s'
    | (Exit c, s') => (Exit c, s')
    | (Raise e, s') => (Raise e, s')
    end.

Declare Scope py_scope.
Delimit Scope py_scope with py.
Notation "'let*' x ':=' m 'in' k" := (bind m (fun x => k))
  (at level 10, x name, m at level 100, k at level 200) : py_scope.
Notation "m ;;; k" := (bind m (fun _ => k))
  (at level 100, right associativity) : py_scope.
Local Open Scope py_scope.

(** [sys.exit(code)]: [SystemExit] is caught nowhere in the script. *)
Definition sys_exit {A} (code : Z) : M A := fun s => (Exit code, s).

(** [if cond: body], falling through to the next statement. *)
Definition when (cond : bool) (body : M unit) : M unit :=
  if cond then body else ret tt.

(** [print(message)] *)
Definition print (message : string) : M unit :=
  fun s => (Ret tt, emit (EPrint message) s).

(** [load_dotenv()] with its defaults: nothing is loaded when python-dotenv
    is switched off; otherwise a variable of the [.env] file is set only
    where the environment has no such variable yet. *)
Definition load_dotenv_os (o : OS) : OS :=
  {| environ := if dotenv_disabled o then environ o
                else environ o ∪ dotenv_values o;
     dotenv_values := dotenv_values o;
     dotenv_disabled := dotenv_disabled o;
     scandir := scandir o;
     st_type := st_type o;
     st_ctime := st_ctime o |}.

Definition load_dotenv : M unit :=
  fun s => (Ret tt, {| os := load_dotenv_os (os s); trace := trace s |}).

(** [os.getenv(name)] *)
Definition getenv (name : string) : M (option string) :=
  fun s => (Ret (environ (os s) !! name), s).

(** Truth value of [os.getenv]'s result: [None] and [''] are false. *)
Definition truthy (v : option string) : bool :=
  match v with
  | None => false
  | Some "" => false
  | Some _ => true
  end.

(** What an f-string makes of [os.getenv]'s result. *)
Definition format_value (v : option string) : string :=
  match v with
  | None => "None"
  | Some k => k
  end.

(** ** Path.glob *)

(** Shell-style matching of one name against one pattern, for patterns made
    of literal characters, [?] and [*]; letter case counts, as it does on
    POSIX systems. *)
Fixpoint fnmatch (pat : string) : string → bool :=
  match pat with
  | "" => fun name => match name with "" => true | _ => false end
  | String c pat' =>
      if Ascii.eqb c "*"%char then
        fix star (name : string) : bool :=
          fnmatch pat' name
          || match name with
             | "" => false
             | String _ name' => star name'
             end
      else if Ascii.eqb c "?"%char then
        fun name =>
          match name with
          | "" => false
          | String _ name' => fnmatch pat' name'
          end
      else
        fun name =>
          match name with
          | "" => false
          | String d name' => Ascii.eqb c d && fnmatch pat' name'
          end
  end.

(** A pattern without wildcards. *)
Fixpoint is_literal (pat : string) : bool :=
  match pat with
  | "" => true
  | String c pat' =>
      negb (Ascii.eqb c "*"%char) && negb (Ascii.eqb c "?"%char) && is_literal pat'
  end.

(** *** pathlib's text of a path (POSIX flavour) *)

(** [s.split('/')] *)
Fixpoint split_slash (s : string) : list string :=
  match s with
  | "" => [""]
  | String c s' =>
      if Ascii.eqb c "/"%char then "" :: split_slash s'
      else match split_slash s' with
           | [] => [String c ""]
           | part :: parts => String c part :: parts
           end
  end.

(** [posixpath.splitroot]: no root, the root [/], or the root [//] of a text
    that starts with exactly two slashes. *)
Definition splitroot (path : string) : string * string :=
  match path with
  | String c1 rest1 =>
      if Ascii.eqb c1 "/"%char then
        match rest1 with
        | String c2 rest2 =>
            if Ascii.eqb c2 "/"%char then
              match rest2 with
              | String c3 _ =>
                  if Ascii.eqb c3 "/"%char then ("/", rest1) else ("//", rest2)
              | "" => ("//", rest2)
              end
            else ("/", rest1)
        | "" => ("/", rest1)
        end
      else ("", path)
  | "" => ("", path)
  end.

(** The parts [Path(text)] keeps: empty parts and [.] are dropped. *)
Definition path_tail (rel : string) : list string :=
  filter (λ part, part ≠ "" ∧ part ≠ ".") (split_slash rel).

(** ['/'.join(parts)] *)
Fixpoint join_slash (parts : list string) : string :=
  match parts with
  | [] => ""
  | [part] => part
  | part :: parts' => part ++ "/" ++ join_slash parts'
  end.

(** The text of the child [name] of [Path(directory)], as [Path.glob] makes
    it and [str] returns it: the normalised text of the directory, a slash
    and the name; the name alone under [Path('.')]; the name after the root
    under [Path('/')]. *)
Definition joinpath (directory name : string) : string :=
  let '(root, rel) := splitroot directory in
  match path_tail rel with
  | [] => root ++ name
  | parts => root ++ join_slash parts ++ "/" ++ name
  end.

(** The paths [Path(directory).glob(pattern)] yields on machine [o]: every
    entry of the directory whose name matches, whatever kind of entry it is,
    in scan order. *)
Definition glob_os (o : OS) (directory pattern : string) : list string :=
  joinpath directory <$> filter (λ name, fnmatch pattern name = true) (scandir o directory).

Definition glob (directory pattern : string) : M (list string) :=
  fun s => (Ret (glob_os (os s) directory pattern), emit (EScan directory) s).

(** ** The built-in max *)

(** The loop of [max(iterable, key=...)]: the key of every item is computed,
    in order, and the running maximum is replaced only by an item whose key
    is strictly greater.  A key that does not return ends the loop. *)
Fixpoint max_from {A} (key : A → result Z) (maxitem : A) (maxval : Z) (rest : list A)
  : result A :=
  match rest with
  | [] => Ret maxitem
  | item :: rest' =>
      match key item with
      | Ret val =>
          if (val >? maxval)%Z then max_from key item val rest'
          else max_from key maxitem maxval rest'
      | Exit code => Exit code
      | Raise exception => Raise exception
      end
  end.

(** [max] of an empty sequence raises [ValueError]. *)
Definition py_max {A} (key : A → result Z) (items : list A) : result A :=
  match items with
  | [] => Raise "ValueError"
  | item :: rest =>
      match key item with
      | Ret val => max_from key item val rest
      | Exit code => Exit code
      | Raise exception => Raise exception
      end
  end.

(** [os.path.getctime(path)] on machine [o]. *)
Definition getctime_os (o : OS) (path : string) : result Z :=
  match st_ctime o path with
  | Some t => Ret t
  | None => Raise "OSError"
  end.

(** [max(paths, key=os.path.getctime)] on the machine as it is now. *)
Definition max_by_getctime (paths : list string) : M string :=
  fun s => (py_max (getctime_os (os s)) paths, s).

(** ** The script *)

Section Script.
Context `{Shell}.

(** [subprocess.run(command, shell=True).returncode] *)
Definition run_shell (command : string) : M Z :=
  fun s =>
    let '(returncode, o') := subprocess_run command (os s) in
    (Ret returncode, {| os := o'; trace := trace s ++ [EShell command returncode] |}).

Definition run_command (command : string) : M unit :=
  let* returncode := run_shell command in
  when (negb (returncode =? 0)%Z)
    (sys_exit returncode).

Definition get_latest_package (directory : string) : M string :=
  let* packages := glob directory "*.nupkg" in
  when (bool_decide (packages = []))
    (print "Error: No .nupkg files found." ;;;
     sys_exit 1) ;;;
  max_by_getctime packages.

Definition build_command : string := "dotnet build -c Release src/".
Definition pack_command : string := "dotnet pack -c Release src/".
Definition release_directory : string := "src/Monads/bin/Release".

(** The f-string of the publish step. *)
Definition push_command (package_path nuget_api_key : string) : string :=
  "dotnet nuget push " ++ package_path ++ " -k " ++ nuget_api_key
    ++ " -s https://api.nuget.org/v3/index.json".

Definition main : M unit :=
  load_dotenv ;;;
  let* nuget_api_key := getenv "NUGET_API_KEY" in
  when (negb (truthy nuget_api_key))
    (print "Error: NUGET_API_KEY environment variable is not set." ;;;
     sys_exit 1) ;;;
  run_command build_command ;;;
  run_command pack_command ;;;
  let* package_path := get_latest_package release_directory in
  run_command (push_command package_path (format_value nuget_api_key)).

(** What is left of [main] once the credential is there. *)
Definition release (nuget_api_key : option string) : M unit :=
  run_command build_command ;;;
  run_command pack_command ;;;
  let* package_path := get_latest_package release_directory in
  run_command (push_command package_path (format_value nuget_api_key)).

(** Running the file as a script: [main()] is the last statement, so the
    interpreter leaves with code 0 when it returns, with the argument of
    [sys.exit] when that was called, and with code 1 after a traceback.
    This is the code the interpreter hands to the operating system;
    [process_status] below is what becomes of it. *)
Definition script (o : OS) : Z * state :=
  match main {| os := o; trace := [] |} with
  | (Ret _, s) => (0, s)
  | (Exit code, s) => (code, s)
  | (Raise _, s) => (1, s)
  end.

(** The status the parent of the process sees, on a POSIX system: the
    operating system keeps the low eight bits of the code the process leaves
    with.  (The codes here are return codes of child processes, which fit a
    C [int].) *)
Definition process_status (code : Z) : Z := code mod 256.

Definition exit_status (o : OS) : Z := process_status (script o).1.

End Script.

(** ** Vocabulary of the properties *)

(** A name carries an extension when it ends with it. *)
Definition has_extension (ext name : string) : Prop :=
  ∃ stem, name = stem ++ ext.

(** The credential [main] reads: the variable as [os.getenv] finds it, once
    [load_dotenv] has run. *)
Definition credential (o : OS) : option string :=
  environ (load_dotenv_os o) !! "NUGET_API_KEY".

(** The candidates of artifact selection on machine [o]. *)
Definition candidates (o : OS) : list string :=
  glob_os o release_directory "*.nupkg".

(** What artifact selection gives on machine [o]. *)
Definition selected (o : OS) : result string :=
  (get_latest_package release_directory {| os := o; trace := [] |}).1.

(** An invocation of the publish step. *)
Definition is_push (e : event) : bool :=
  match e with
  | EShell command _ => String.prefix "dotnet nuget push " command
  | _ => false
  end.

(** The commands a trace has started, in order. *)
Fixpoint commands (events : list event) : list string :=
  match events with
  | [] => []
  | EShell command _ :: events' => command :: commands events'
  | _ :: events' => commands events'
  end.

(** The ways a run of the script can go, with its exit status and the state
    it leaves behind. *)
Inductive run `{Shell} (o : OS) : Z → state → Prop :=
| run_missing_credential :
    truthy (credential o) = false →
    run o 1 {| os := load_dotenv_os o;
               trace := [EPrint "Error: NUGET_API_KEY environment variable is not set."] |}
| run_build_failed c o1 :
    truthy (credential o) = true →
    subprocess_run build_command (load_dotenv_os o) = (c, o1) → c ≠ 0 →
    run o c {| os := o1; trace := [EShell build_command c] |}
| run_pack_failed c o1 o2 :
    truthy (credential o) = true →
    subprocess_run build_command (load_dotenv_os o) = (0, o1) →
    subprocess_run pack_command o1 = (c, o2) → c ≠ 0 →
    run o c {| os := o2; trace := [EShell build_command 0; EShell pack_command c] |}
| run_no_artifact o1 o2 :
    truthy (credential o) = true →
    subprocess_run build_command (load_dotenv_os o) = (0, o1) →
    subprocess_run pack_command o1 = (0, o2) →
    candidates o2 = [] →
    run o 1 {| os := o2;
               trace := [EShell build_command 0; EShell pack_command 0;
                         EScan release_directory;
                         EPrint "Error: No .nupkg files found."] |}
| run_selection_raised e o1 o2 :
    truthy (credential o) = true →
    subprocess_run build_command (load_dotenv_os o) = (0, o1) →
    subprocess_run pack_command o1 = (0, o2) →
    candidates o2 ≠ [] →
    py_max (getctime_os o2) (candidates o2) = Raise e →
    run o 1 {| os := o2;
               trace := [EShell build_command 0; EShell pack_command 0;
                         EScan release_directory] |}
| run_push_failed k c p o1 o2 o3 :
    credential o = Some k → k ≠ "" →
    subprocess_run build_command (load_dotenv_os o) = (0, o1) →
    subprocess_run pack_command o1 = (0, o2) →
    py_max (getctime_os o2) (candidates o2) = Ret p →
    subprocess_run (push_command p k) o2 = (c, o3) → c ≠ 0 →
    run o c {| os := o3;
               trace := [EShell build_command 0; EShell pack_command 0;
                         EScan release_directory;
                         EShell (push_command p k) c] |}
| run_published k p o1 o2 o3 :
    credential o = Some k → k ≠ "" →
    subprocess_run build_command (load_dotenv_os o) = (0, o1) →
    subprocess_run pack_command o1 = (0, o2) →
    py_max (getctime_os o2) (candidates o2) = Ret p →
    subprocess_run (push_command p k) o2 = (0, o3) →
    run o 0 {| os := o3;
               trace := [EShell build_command 0; EShell pack_command 0;
                         EScan release_directory;
                         EShell (push_command p k) 0] |}.

(** ** Machines and toolchains to run the script on *)

Definition bare_os : OS :=
  {| environ := ∅;
     dotenv_values := ∅;
     dotenv_disabled := false;
     scandir := λ _, [];
     st_type := λ _, Special;
     st_ctime := λ _, None |}.

Definition with_credential (k : string) (o : OS) : OS :=
  {| environ := <["NUGET_API_KEY" := k]> (environ o);
     dotenv_values := dotenv_values o;
     dotenv_disabled := dotenv_disabled o;
     scandir := scandir o;
     st_type := st_type o;
     st_ctime := st_ctime o |}.

(** Put an entry into the release directory, behind the ones already there;
    [ctime] is what [os.path.getctime] makes of it. *)
Definition with_stat (name : string) (type : file_type) (ctime : option Z) (o : OS) : OS :=
  {| environ := environ o;
     dotenv_values := dotenv_values o;
     dotenv_disabled := dotenv_disabled o;
     scandir := λ d, if String.eqb d release_directory
                     then (scandir o d ++ [name])%list else scandir o d;
     st_type := λ p, if String.eqb p (joinpath release_directory name)
                     then type else st_type o p;
     st_ctime := λ p, if String.eqb p (joinpath release_directory name)
                      then ctime else st_ctime o p |}.

(** An entry [os.stat] succeeds on. *)
Definition with_entry (name : string) (type : file_type) (ctime : Z) (o : OS) : OS :=
  with_stat name type (Some ctime) o.

(** A toolchain whose every command succeeds and whose pack step leaves the
    one file [pkg-1.0.0.nupkg]. *)
Definition mock_toolchain : Shell :=
  λ command o,
    if String.eqb command pack_command
    then (0, with_entry "pkg-1.0.0.nupkg" Regular 100 o)
    else (0, o).

(** A toolchain whose every command succeeds and changes nothing. *)
Definition idle_toolchain : Shell := λ _ o, (0, o).

(** A toolchain whose build step fails with status 3. *)
Definition broken_build : Shell :=
  λ command o, if String.eqb command build_command then (3, o) else (0, o).

(** A toolchain whose shell is killed by signal 9 during the build step. *)
Definition killed_build : Shell :=
  λ command o, if String.eqb command build_command then (-9, o) else (0, o).

(** A toolchain whose pack step fails with status 4. *)
Definition broken_pack : Shell :=
  λ command o, if String.eqb command pack_command then (4, o) else (0, o).

(** A toolchain whose publish step is turned down with status 5. *)
Definition refusing_registry : Shell :=
  λ command o,
    if String.prefix "dotnet nuget push " command then (5, o) else (0, o).

(** A machine whose environment lacks the credential while its [.env] file
    has it. *)
Definition dotenv_os : OS :=
  {| environ := ∅;
     dotenv_values := {["NUGET_API_KEY" := "abc123"]};
     dotenv_disabled := false;
     scandir := λ _, [];
     st_type := λ _, Special;
     st_ctime := λ _, None |}.

(** A release directory with three packages, the last two changed at the
    same time, next to a file of another kind. *)
Definition tied_os : OS :=
  with_entry "c.nupkg" Regular 9
    (with_entry "notes.txt" Regular 50
       (with_entry "b.nupkg" Regular 9
          (with_entry "a.nupkg" Regular 5 (with_credential "abc123" bare_os)))).

(** The same three packages without the file of another kind. *)
Definition packages_only_os : OS :=
  with_entry "c.nupkg" Regular 9
    (with_entry "b.nupkg" Regular 9
       (with_entry "a.nupkg" Regular 5 (with_credential "abc123" bare_os))).

(** A machine whose environment has an empty credential while its [.env]
    file has a proper one. *)
Definition empty_variable_os : OS :=
  {| environ := {["NUGET_API_KEY" := ""]};
     dotenv_values := {["NUGET_API_KEY" := "abc123"]};
     dotenv_disabled := false;
     scandir := λ _, [];
     st_type := λ _, Special;
     st_ctime := λ _, None |}.

(** A release directory with a package and, scanned after it, a symbolic
    link of a matching name that leads nowhere. *)
Definition dangling_os : OS :=
  with_stat "ghost.nupkg" Symlink None
    (with_entry "good.nupkg" Regular 5 (with_credential "abc123" bare_os)).

(** A release directory with a directory of a matching name and such a
    link, and no regular file of a matching name. *)
Definition dangling_subdir_os : OS :=
  with_stat "ghost.nupkg" Symlink None
    (with_entry "old.nupkg" Directory 7 (with_credential "abc123" bare_os)).

(** A machine on which python-dotenv is switched off. *)
Definition disabled_dotenv_os : OS :=
  {| environ := ∅;
     dotenv_values := {["NUGET_API_KEY" := "abc123"]};
     dotenv_disabled := true;
     scandir := λ _, [];
     st_type := λ _, Special;
     st_ctime := λ _, None |}.

(** A release directory whose only [.nupkg] entry is a directory. *)
Definition subdir_os : OS :=
  with_entry "old.nupkg" Directory 7
    (with_entry "notes.txt" Regular 50 (with_credential "abc123" bare_os)).

(** * Properties *)

(** ** Patterns and directory scans *)

Lemma fnmatch_literal pat name :
  is_literal pat = true → fnmatch pat name = String.eqb pat name.
Proof.
  revert name.
  induction pat as [|c pat IH]; intros name Hlit; [by destruct name|].
  cbn in Hlit. apply andb_prop in Hlit as [Hc Hlit].
  apply andb_prop in Hc as [Hstar Hany].
  apply negb_true_iff in Hstar, Hany.
  cbn [fnmatch]. rewrite Hstar, Hany.
  destruct name as [|d name]; [done|].
  cbn [String.eqb]. rewrite IH by done.
  by destruct (Ascii.eqb c d).
Qed.

Lemma fnmatch_star pat name :
  fnmatch (String "*" pat) name
  = fnmatch pat name
    || match name with
       | "" => false
       | String _ name' => fnmatch (String "*" pat) name'
       end.
Proof. by destruct name. Qed.

Lemma fnmatch_star_literal pat name :
  is_literal pat = true →
  fnmatch (String "*" pat) name = true ↔ has_extension pat name.
Proof.
  intros Hlit. split.
  - induction name as [|d name IH]; rewrite fnmatch_star;
      intros [Hhere|Hlater]%orb_true_iff.
    + exists "". rewrite fnmatch_literal in Hhere by done.
      apply String.eqb_eq in Hhere. by subst.
    + done.
    + exists "". rewrite fnmatch_literal in Hhere by done.
      apply String.eqb_eq in Hhere. by subst.
    + destruct (IH Hlater) as [stem ->]. by exists (String d stem).
  - intros [stem ->].
    induction stem as [|d stem IH]; rewrite fnmatch_star.
    + change ("" +:+ pat) with pat. rewrite fnmatch_literal by done.
      by rewrite String.eqb_refl.
    + change (String d stem +:+ pat) with (String d (stem +:+ pat)).
      cbv iota. rewrite IH. apply orb_true_r.
Qed.

Lemma fnmatch_nupkg name :
  fnmatch "*.nupkg" name = true ↔ has_extension ".nupkg" name.
Proof. by apply fnmatch_star_literal. Qed.

Example fnmatch_nupkg_samples :
  fnmatch "*.nupkg" "pkg-1.0.0.nupkg" = true
  ∧ fnmatch "*.nupkg" ".nupkg" = true
  ∧ fnmatch "*.nupkg" "pkg.nupkg.bak" = false
  ∧ fnmatch "*.nupkg" "PKG.NUPKG" = false.
Proof. by repeat split. Qed.

Lemma elem_of_glob_os o directory p :
  p ∈ glob_os o directory "*.nupkg" ↔
  ∃ name, p = joinpath directory name
          ∧ name ∈ scandir o directory ∧ has_extension ".nupkg" name.
Proof.
  unfold glob_os. rewrite list_elem_of_fmap.
  split; intros (name & -> & Hname); exists name; split; try done.
  - apply list_elem_of_filter in Hname as [Hm Hin].
    split; [done|]. by apply fnmatch_nupkg.
  - apply list_elem_of_filter. destruct Hname as [Hin Hext].
    split; [|done]. by apply fnmatch_nupkg.
Qed.

Lemma glob_os_nil o directory :
  glob_os o directory "*.nupkg" = [] ↔
  ∀ name, name ∈ scandir o directory → ¬ has_extension ".nupkg" name.
Proof.
  split.
  - intros Hnil name Hin Hext.
    assert (joinpath directory name ∈ glob_os o directory "*.nupkg") as Hp
      by (apply elem_of_glob_os; eauto).
    rewrite Hnil in Hp. by apply not_elem_of_nil in Hp.
  - intros Hnone.
    destruct (glob_os o directory "*.nupkg") as [|p ps] eqn:Hglob; [done|].
    assert (p ∈ glob_os o directory "*.nupkg") as Hp
      by (rewrite Hglob; apply list_elem_of_here).
    apply elem_of_glob_os in Hp as (name & _ & Hin & Hext).
    by destruct (Hnone name Hin).
Qed.

(** ** The built-in max *)

Section Max.
Context {A : Type} (key : A → result Z) (t : A → Z).

Lemma max_from_keeps p tp post :
  (∀ q, q ∈ post → ∃ tq, key q = Ret tq ∧ tq ≤ tp) →
  max_from key p tp post = Ret p.
Proof.
  induction post as [|q post IH]; intros Hpost; [done|].
  cbn. destruct (Hpost q) as (tq & -> & Hle); [left|].
  destruct (Z.gtb_spec tq tp); [lia|].
  apply IH. intros q' Hq'. apply Hpost. by right.
Qed.

Lemma max_from_first m tm pre p tp post :
  key p = Ret tp → tm < tp →
  (∀ q, q ∈ pre → ∃ tq, key q = Ret tq ∧ tq < tp) →
  (∀ q, q ∈ post → ∃ tq, key q = Ret tq ∧ tq ≤ tp) →
  max_from key m tm (pre ++ p :: post) = Ret p.
Proof.
  intros Hp. revert m tm.
  induction pre as [|q pre IH]; intros m tm Hm Hpre Hpost; cbn.
  - rewrite Hp. destruct (Z.gtb_spec tp tm); [|lia].
    by apply max_from_keeps.
  - destruct (Hpre q) as (tq & -> & Hlt); [left|].
    assert (∀ q', q' ∈ pre → ∃ tq', key q' = Ret tq' ∧ tq' < tp)
      by (intros q' Hq'; apply Hpre; by right).
    destruct (Z.gtb_spec tq tm); by apply IH.
Qed.

(** [max] returns the first item whose key is the greatest. *)
Lemma py_max_first pre p tp post :
  key p = Ret tp →
  (∀ q, q ∈ pre → ∃ tq, key q = Ret tq ∧ tq < tp) →
  (∀ q, q ∈ post → ∃ tq, key q = Ret tq ∧ tq ≤ tp) →
  py_max key (pre ++ p :: post) = Ret p.
Proof.
  intros Hp Hpre Hpost. destruct pre as [|m pre]; cbn.
  - rewrite Hp. by apply max_from_keeps.
  - destruct (Hpre m) as (tm & -> & Hlt); [left|].
    apply (max_from_first m tm pre p tp post); [done|done| |done].
    intros q Hq. apply Hpre. by right.
Qed.

(** Every non-empty list has such a first greatest item. *)
Lemma first_greatest_exists (items : list A) :
  items ≠ [] →
  ∃ (pre : list A) p post,
    items = (pre ++ p :: post)%list
    ∧ (∀ q, q ∈ pre → t q < t p)
    ∧ (∀ q, q ∈ post → t q ≤ t p).
Proof.
  induction items as [|x items IH]; [done|]. intros _.
  destruct items as [|y items].
  { exists [], x, []. split; [done|]. split; intros q Hq; inversion Hq. }
  destruct IH as (pre & p & post & Heq & Hpre & Hpost); [done|].
  destruct (Z_lt_le_dec (t x) (t p)) as [Hlt|Hge].
  - exists (x :: pre), p, post. rewrite Heq. split; [done|].
    split; [|done].
    intros q [->|Hq]%elem_of_cons; [done|by apply Hpre].
  - exists [], x, (y :: items). split; [done|].
    split; [intros q Hq; inversion Hq|].
    intros q Hq. rewrite Heq in Hq.
    apply elem_of_app in Hq as [Hq|Hq].
    + specialize (Hpre q Hq). lia.
    + apply elem_of_cons in Hq as [->|Hq]; [lia|].
      specialize (Hpost q Hq). lia.
Qed.

Lemma py_max_greatest (items : list A) :
  items ≠ [] →
  (∀ q, q ∈ items → key q = Ret (t q)) →
  ∃ p, py_max key items = Ret p
       ∧ p ∈ items ∧ (∀ q, q ∈ items → t q ≤ t p).
Proof.
  intros (pre & p & post & -> & Hpre & Hpost)%first_greatest_exists Hkey.
  exists p. split.
  - apply (py_max_first pre p (t p) post).
    + apply Hkey, elem_of_app. right. left.
    + intros q Hq. exists (t q). split; [|by apply Hpre].
      apply Hkey, elem_of_app. by left.
    + intros q Hq. exists (t q). split; [|by apply Hpost].
      apply Hkey, elem_of_app. right. by right.
  - split; [apply elem_of_app; right; left|].
    intros q [Hq|Hq]%elem_of_app.
    + specialize (Hpre q Hq). lia.
    + apply elem_of_cons in Hq as [->|Hq]; [lia|by apply Hpost].
Qed.

(** What [max] returns is one of the items, and the key of every item has
    been computed. *)
Lemma max_from_Ret m tm rest p :
  max_from key m tm rest = Ret p →
  p ∈ m :: rest ∧ ∀ q, q ∈ rest → ∃ tq, key q = Ret tq.
Proof.
  revert m tm. induction rest as [|x rest IH]; intros m tm; cbn.
  - intros [= ->]. split; [left|]. intros q Hq. inversion Hq.
  - destruct (key x) as [tx| |] eqn:Hx; [|done..].
    intros Hmax.
    assert (p ∈ m :: x :: rest ∧ ∀ q, q ∈ rest → ∃ tq, key q = Ret tq)
      as [Hp Hrest].
    { destruct (tx >? tm); apply IH in Hmax as [Hp Hrest]; (split; [|done]).
      - by right.
      - apply elem_of_cons in Hp as [->|Hp]; [left|by do 2 right]. }
    split; [done|].
    intros q [->|Hq]%elem_of_cons; [by eauto|by apply Hrest].
Qed.

Lemma py_max_Ret (items : list A) p :
  py_max key items = Ret p →
  p ∈ items ∧ ∀ q, q ∈ items → ∃ tq, key q = Ret tq.
Proof.
  destruct items as [|x rest]; [done|]. cbn.
  destruct (key x) as [tx| |] eqn:Hx; [|done..].
  intros [Hp Hrest]%max_from_Ret. split; [done|].
  intros q [->|Hq]%elem_of_cons; [by eauto|by apply Hrest].
Qed.



Lemma max_from_Exit m tm rest c :
  max_from key m tm rest = Exit c → ∃ q, q ∈ rest ∧ key q = Exit c.
Proof.
  revert m tm. induction rest as [|x rest IH]; intros m tm; cbn; [done|].
  destruct (key x) as [tx| |] eqn:Hx.
  - intros Hmax.
    assert (∃ q, q ∈ rest ∧ key q = Exit c) as (q & Hq & Hkey)
      by (destruct (tx >? tm); by apply IH in Hmax).
    exists q. split; [by right|done].
  - intros [= ->]. exists x. split; [left|done].
  - done.
Qed.

Lemma py_max_Exit (items : list A) c :
  py_max key items = Exit c → ∃ q, q ∈ items ∧ key q = Exit c.
Proof.
  destruct items as [|x rest]; [done|]. cbn.
  destruct (key x) as [tx| |] eqn:Hx.
  - intros (q & Hq & Hkey)%max_from_Exit. exists q. split; [by right|done].
  - intros [= ->]. exists x. split; [left|done].
  - done.
Qed.

End Max.

Example py_max_keeps_first :
  py_max (λ item, Ret item.1) [(3, "a"); (7, "b"); (7, "c"); (1, "d")]
  = Ret (7, "b").
Proof. reflexivity. Qed.

Example py_max_key_raises :
  py_max (λ item, if item.1 =? 0 then Raise "OSError" else Ret item.1)
    [(3, "a"); (7, "b"); (0, "c")]
  = Raise "OSError".
Proof. reflexivity. Qed.

Lemma getctime_os_Ret o path t :
  getctime_os o path = Ret t ↔ st_ctime o path = Some t.
Proof.
  unfold getctime_os. destruct (st_ctime o path); split; intros; by simplify_eq.
Qed.

Lemma getctime_os_not_Exit o path c : getctime_os o path ≠ Exit c.
Proof. unfold getctime_os. by destruct (st_ctime o path). Qed.


(** ** The steps of the script, one at a time *)

Section Steps.
Context `{Shell}.

Lemma run_command_succeeded command s o' :
  subprocess_run command (os s) = (0, o') →
  run_command command s
  = (Ret tt, {| os := o'; trace := trace s ++ [EShell command 0] |}).
Proof.
  intros Hrun. unfold run_command, bind, run_shell. by rewrite Hrun.
Qed.

Lemma run_command_failed command s c o' :
  subprocess_run command (os s) = (c, o') → c ≠ 0 →
  run_command command s
  = (Exit c, {| os := o'; trace := trace s ++ [EShell command c] |}).
Proof.
  intros Hrun Hc. unfold run_command, bind, run_shell. rewrite Hrun.
  apply Z.eqb_neq in Hc. by rewrite Hc.
Qed.

(** With a candidate there, [get_latest_package] ends as [max] does. *)
Lemma get_latest_package_max directory s :
  glob_os (os s) directory "*.nupkg" ≠ [] →
  get_latest_package directory s
  = (py_max (getctime_os (os s)) (glob_os (os s) directory "*.nupkg"),
     emit (EScan directory) s).
Proof.
  intros Hne. unfold get_latest_package, bind, glob.
  rewrite bool_decide_eq_false_2 by done.
  unfold when, ret, max_by_getctime. cbn [os emit].
  by destruct (py_max _ _).
Qed.

Lemma get_latest_package_found directory s p :
  py_max (getctime_os (os s)) (glob_os (os s) directory "*.nupkg") = Ret p →
  get_latest_package directory s = (Ret p, emit (EScan directory) s).
Proof.
  intros Hmax. rewrite get_latest_package_max; [by rewrite Hmax|].
  intros Hnil. by rewrite Hnil in Hmax.
Qed.

Lemma get_latest_package_raised directory s e :
  glob_os (os s) directory "*.nupkg" ≠ [] →
  py_max (getctime_os (os s)) (glob_os (os s) directory "*.nupkg") = Raise e →
  get_latest_package directory s = (Raise e, emit (EScan directory) s).
Proof. intros Hne Hmax. rewrite get_latest_package_max by done. by rewrite Hmax. Qed.

Lemma get_latest_package_empty directory s :
  glob_os (os s) directory "*.nupkg" = [] →
  get_latest_package directory s
  = (Exit 1, {| os := os s;
                trace := trace s ++ [EScan directory;
                                     EPrint "Error: No .nupkg files found."] |}).
Proof.
  intros Hglob. unfold get_latest_package, bind, glob. rewrite Hglob.
  cbn. unfold emit. cbn. by rewrite <- app_assoc.
Qed.

End Steps.

(** ** Every run of the script is one of the seven *)

Section Runs.
Context `{Shell}.

Lemma truthy_Some v : truthy v = true ↔ ∃ k, v = Some k ∧ k ≠ "".
Proof.
  split.
  - destruct v as [[|c k]|]; [done| |done]. intros _. by exists (String c k).
  - intros (k & -> & Hk). by destruct k.
Qed.

Lemma truthy_false v : truthy v = false ↔ v = None ∨ v = Some "".
Proof.
  split.
  - destruct v as [[|c k]|]; [by right|done|by left].
  - by intros [->| ->].
Qed.

Lemma bind_Ret {A B} (m : M A) (k : A → M B) s a s' :
  m s = (Ret a, s') → bind m k s = k a s'.
Proof. intros Hm. unfold bind. by rewrite Hm. Qed.

Lemma bind_Exit {A B} (m : M A) (k : A → M B) s c s' :
  m s = (Exit c, s') → bind m k s = (Exit c, s').
Proof. intros Hm. unfold bind. by rewrite Hm. Qed.

Lemma bind_Raise {A B} (m : M A) (k : A → M B) s e s' :
  m s = (Raise e, s') → bind m k s = (Raise e, s').
Proof. intros Hm. unfold bind. by rewrite Hm. Qed.

Lemma main_credential o t :
  main {| os := o; trace := t |}
  = if truthy (credential o)
    then release (credential o) {| os := load_dotenv_os o; trace := t |}
    else (Exit 1, {| os := load_dotenv_os o;
                     trace := t ++ [EPrint "Error: NUGET_API_KEY environment variable is not set."] |}).
Proof.
  unfold main.
  erewrite bind_Ret by reflexivity.
  erewrite bind_Ret by reflexivity.
  cbn [os trace]. fold (credential o).
  destruct (truthy (credential o)); cbn [negb when].
  - by erewrite bind_Ret by reflexivity.
  - erewrite bind_Exit; [done|].
    by erewrite bind_Ret by reflexivity.
Qed.

Lemma script_run o : run o (script o).1 (script o).2.
Proof.
  unfold script. rewrite main_credential.
  destruct (truthy (credential o)) eqn:Hcred; [|by constructor].
  pose proof Hcred as (k & Hk & Hne)%truthy_Some.
  unfold release.
  destruct (subprocess_run build_command (load_dotenv_os o)) as [c1 o1] eqn:Hbuild.
  destruct (decide (c1 = 0)) as [->|Hc1].
  2:{ erewrite bind_Exit by (by apply run_command_failed).
      by eapply run_build_failed. }
  erewrite bind_Ret by (by apply run_command_succeeded).
  destruct (subprocess_run pack_command o1) as [c2 o2] eqn:Hpack.
  destruct (decide (c2 = 0)) as [->|Hc2].
  2:{ erewrite bind_Exit by (by apply run_command_failed).
      by eapply run_pack_failed. }
  erewrite bind_Ret by (by apply run_command_succeeded).
  destruct (decide (candidates o2 = [])) as [Hnone|Hsome].
  { erewrite bind_Exit by (by apply get_latest_package_empty).
    by eapply run_no_artifact. }
  destruct (py_max (getctime_os o2) (candidates o2)) as [p|c|e] eqn:Hmax.
  2:{ apply py_max_Exit in Hmax as (q & _ & Hq).
      by destruct (getctime_os_not_Exit o2 q c). }
  2:{ erewrite bind_Raise by (by apply get_latest_package_raised).
      by eapply run_selection_raised. }
  erewrite bind_Ret by (by apply get_latest_package_found).
  rewrite Hk. cbn [format_value].
  destruct (subprocess_run (push_command p k) o2) as [c3 o3] eqn:Hpush.
  destruct (decide (c3 = 0)) as [->|Hc3].
  - erewrite run_command_succeeded by done.
    by eapply run_published.
  - erewrite run_command_failed by done.
    by eapply run_push_failed.
Qed.

Lemma run_functional o c st c' st' :
  run o c st → run o c' st' → c = c' ∧ st = st'.
Proof.
  intros Hrun Hrun'.
  destruct Hrun; destruct Hrun';
    repeat match goal with
      | Hc : truthy _ = false |- _ => apply truthy_false in Hc as [Hc|Hc]
      | Hc : truthy _ = true |- _ => apply truthy_Some in Hc as (? & Hc & ?)
      end;
    repeat match goal with
      | Ha : ?x = _, Hb : ?x = _ |- _ => rewrite Ha in Hb; simplify_eq
      end;
    try match goal with
      | Hn : candidates ?o' = [], Hm : py_max _ (candidates ?o') = _ |- _ =>
          by rewrite Hn in Hm
      end;
    done.
Qed.

(** The seven cases describe [script], and nothing else. *)
Lemma run_script o c st : run o c st ↔ script o = (c, st).
Proof.
  split.
  - intros Hrun.
    destruct (run_functional _ _ _ _ _ Hrun (script_run o)) as [-> ->].
    by destruct (script o).
  - intros Hscript. pose proof (script_run o) as Hrun.
    by rewrite Hscript in Hrun.
Qed.

End Runs.


(** ** Artifact selection *)

Lemma max_from_ext {A} (key key' : A → result Z) maxitem maxval rest :
  (∀ x, key x = key' x) →
  max_from key maxitem maxval rest = max_from key' maxitem maxval rest.
Proof.
  intros Hext. revert maxitem maxval.
  induction rest as [|x rest IH]; intros maxitem maxval; [done|].
  cbn. rewrite Hext. destruct (key' x) as [val| |]; [|done..].
  destruct (val >? maxval); apply IH.
Qed.

Lemma get_latest_package_Ret directory s p :
  (get_latest_package directory s).1 = Ret p ↔
  py_max (getctime_os (os s)) (glob_os (os s) directory "*.nupkg") = Ret p.
Proof.
  destruct (decide (glob_os (os s) directory "*.nupkg" = [])) as [Hnil|Hne].
  - rewrite (get_latest_package_empty _ _ Hnil), Hnil. done.
  - by rewrite (get_latest_package_max _ _ Hne).
Qed.

Lemma selected_Ret o p :
  selected o = Ret p ↔ py_max (getctime_os o) (candidates o) = Ret p.
Proof. apply get_latest_package_Ret. Qed.

Lemma get_latest_package_greatest directory s :
  glob_os (os s) directory "*.nupkg" ≠ [] →
  (∀ q, q ∈ glob_os (os s) directory "*.nupkg" → is_Some (st_ctime (os s) q)) →
  ∃ p tp,
    get_latest_package directory s = (Ret p, emit (EScan directory) s)
    ∧ p ∈ glob_os (os s) directory "*.nupkg"
    ∧ st_ctime (os s) p = Some tp
    ∧ (∀ q, q ∈ glob_os (os s) directory "*.nupkg" →
            ∃ tq, st_ctime (os s) q = Some tq ∧ tq ≤ tp).
Proof.
  intros Hne Hstat.
  set (t := λ q, default 0 (st_ctime (os s) q)).
  assert (∀ q, q ∈ glob_os (os s) directory "*.nupkg" →
               st_ctime (os s) q = Some (t q)) as Ht.
  { intros q Hq. unfold t. by destruct (Hstat q Hq) as [tq ->]. }
  destruct (py_max_greatest (getctime_os (os s)) t _ Hne)
    as (p & Hmax & Hp & Hle).
  { intros q Hq. by apply getctime_os_Ret, Ht. }
  exists p, (t p). split; [by apply get_latest_package_found|].
  split; [done|]. split; [by apply Ht|].
  intros q Hq. exists (t q). split; [by apply Ht|by apply Hle].
Qed.

(** C1, as the code has it.  In a directory with at least one entry that
    carries the extension, and where [os.path.getctime] succeeds on every
    such entry, [get_latest_package] returns one path; the path is that of
    an entry of the directory carrying the extension, and no such entry has a
    later timestamp. *)
Theorem get_latest_package_latest directory s name0 :
  name0 ∈ scandir (os s) directory →
  has_extension ".nupkg" name0 →
  (∀ name, name ∈ scandir (os s) directory →
           has_extension ".nupkg" name →
           is_Some (st_ctime (os s) (joinpath directory name))) →
  ∃ p tp,
    get_latest_package directory s = (Ret p, emit (EScan directory) s)
    ∧ (∃ name, p = joinpath directory name
               ∧ name ∈ scandir (os s) directory
               ∧ has_extension ".nupkg" name)
    ∧ st_ctime (os s) p = Some tp
    ∧ (∀ name, name ∈ scandir (os s) directory →
               has_extension ".nupkg" name →
               ∃ t, st_ctime (os s) (joinpath directory name) = Some t
                    ∧ t ≤ tp).
Proof.
  intros Hin Hext Hstat.
  assert (glob_os (os s) directory "*.nupkg" ≠ []) as Hne.
  { intros Hnil. by eapply glob_os_nil. }
  destruct (get_latest_package_greatest directory s Hne)
    as (p & tp & Hret & Hp & Htp & Hle).
  { intros q (name & -> & Hname & Hname_ext)%elem_of_glob_os. by apply Hstat. }
  exists p, tp. split; [done|].
  split; [by apply elem_of_glob_os|]. split; [done|].
  intros name Hname Hname_ext. apply Hle, elem_of_glob_os. eauto.
Qed.

Lemma get_latest_package_latest_witness :
  ∃ p tp,
    get_latest_package release_directory {| os := tied_os; trace := [] |}
    = (Ret p, {| os := tied_os; trace := [EScan release_directory] |})
    ∧ st_ctime tied_os p = Some tp
    ∧ 5 ≤ tp.
Proof.
  assert (∀ name, name ∈ scandir tied_os release_directory →
                  is_Some (st_ctime tied_os (joinpath release_directory name)))
    as Hstat.
  { intros name Hin. vm_compute in Hin.
    repeat (apply elem_of_cons in Hin as [->|Hin]; [by eexists|]).
    by apply not_elem_of_nil in Hin. }
  destruct (get_latest_package_latest release_directory
              {| os := tied_os; trace := [] |} "a.nupkg")
    as (p & tp & Hret & _ & Htp & Hle).
  - vm_compute. left.
  - by exists "a".
  - intros name Hin _. by apply Hstat.
  - exists p, tp. split; [exact Hret|]. split; [exact Htp|].
    destruct (Hle "a.nupkg") as (t & Ht & Hle'); [vm_compute; left|by exists "a"|].
    vm_compute in Ht. by simplify_eq.
Defined.

(** Without that condition the property fails: with a package and a
    symbolic link of a matching name that leads nowhere, the directory has
    matching entries and [get_latest_package] returns no path; it ends in
    the [OSError] of [os.path.getctime]. *)
Lemma get_latest_package_dangling_link :
  "good.nupkg" ∈ scandir dangling_os release_directory
  ∧ has_extension ".nupkg" "good.nupkg"
  ∧ get_latest_package release_directory {| os := dangling_os; trace := [] |}
    = (Raise "OSError", {| os := dangling_os; trace := [EScan release_directory] |})
  ∧ ∀ p st,
      get_latest_package release_directory {| os := dangling_os; trace := [] |}
      ≠ (Ret p, st).
Proof.
  assert (get_latest_package release_directory {| os := dangling_os; trace := [] |}
          = (Raise "OSError", {| os := dangling_os; trace := [EScan release_directory] |}))
    as Hraise by reflexivity.
  split; [vm_compute; left|]. split; [by exists "good"|].
  split; [done|]. intros p st. by rewrite Hraise.
Qed.

(** C8. [get_latest_package] returns the first path, in scan order, whose
    timestamp is the greatest: ties go to the entry scanned first.  The path
    depends on the listing and the timestamps only, so two runs over the same
    listing return the same path. *)
Theorem get_latest_package_first_of_ties :
  (∀ directory s (pre : list string) p post tp,
     glob_os (os s) directory "*.nupkg" = (pre ++ p :: post)%list →
     st_ctime (os s) p = Some tp →
     (∀ q, q ∈ pre → ∃ tq, st_ctime (os s) q = Some tq ∧ tq < tp) →
     (∀ q, q ∈ post → ∃ tq, st_ctime (os s) q = Some tq ∧ tq ≤ tp) →
     get_latest_package directory s = (Ret p, emit (EScan directory) s))
  ∧ (∀ directory s s',
       scandir (os s) directory = scandir (os s') directory →
       (∀ q, st_ctime (os s) q = st_ctime (os s') q) →
       (get_latest_package directory s).1 = (get_latest_package directory s').1).
Proof.
  split.
  - intros directory s pre p post tp Hglob Hp Hpre Hpost.
    apply get_latest_package_found. rewrite Hglob.
    apply (py_max_first _ pre p tp post).
    + by apply getctime_os_Ret.
    + intros q Hq. destruct (Hpre q Hq) as (tq & Htq & Hlt).
      exists tq. by rewrite getctime_os_Ret.
    + intros q Hq. destruct (Hpost q Hq) as (tq & Htq & Hle).
      exists tq. by rewrite getctime_os_Ret.
  - intros directory s s' Hscan Hctime.
    assert (glob_os (os s) directory "*.nupkg"
            = glob_os (os s') directory "*.nupkg") as Hglob
      by (unfold glob_os; by rewrite Hscan).
    assert (∀ q, getctime_os (os s) q = getctime_os (os s') q) as Hkey
      by (intros q; unfold getctime_os; by rewrite Hctime).
    destruct (decide (glob_os (os s') directory "*.nupkg" = [])) as [Hnil|Hne].
    + rewrite (get_latest_package_empty _ s) by (by rewrite Hglob).
      by rewrite (get_latest_package_empty _ s') by done.
    + rewrite (get_latest_package_max _ s) by (by rewrite Hglob).
      rewrite (get_latest_package_max _ s') by done.
      cbn. rewrite Hglob.
      destruct (glob_os (os s') directory "*.nupkg") as [|q qs]; [done|].
      cbn. rewrite Hkey. destruct (getctime_os (os s') q); [|done..].
      by apply max_from_ext.
Qed.

Lemma get_latest_package_first_of_ties_witness :
  st_ctime tied_os "src/Monads/bin/Release/b.nupkg"
  = st_ctime tied_os "src/Monads/bin/Release/c.nupkg"
  ∧ get_latest_package release_directory {| os := tied_os; trace := [] |}
    = (Ret "src/Monads/bin/Release/b.nupkg",
       {| os := tied_os; trace := [EScan release_directory] |}).
Proof.
  split; [reflexivity|].
  apply (proj1 get_latest_package_first_of_ties release_directory
           {| os := tied_os; trace := [] |}
           ["src/Monads/bin/Release/a.nupkg"]
           "src/Monads/bin/Release/b.nupkg"
           ["src/Monads/bin/Release/c.nupkg"] 9).
  - reflexivity.
  - reflexivity.
  - intros q ->%list_elem_of_singleton. exists 5. by split.
  - intros q ->%list_elem_of_singleton. exists 9. by split.
Defined.

(** ** The driver *)

(** Once an artifact is selected the publish step is started, whatever
    comes of it. *)
Lemma script_reaches_publish `{Shell} o k o1 o2 p :
  credential o = Some k → k ≠ "" →
  subprocess_run build_command (load_dotenv_os o) = (0, o1) →
  subprocess_run pack_command o1 = (0, o2) →
  selected o2 = Ret p →
  ∃ c o3,
    subprocess_run (push_command p k) o2 = (c, o3)
    ∧ script o
      = (c, {| os := o3;
               trace := [EShell build_command 0; EShell pack_command 0;
                         EScan release_directory;
                         EShell (push_command p k) c] |}).
Proof.
  intros Hk Hne Hbuild Hpack Hsel%selected_Ret.
  destruct (subprocess_run (push_command p k) o2) as [c o3] eqn:Hpush.
  exists c, o3. split; [done|]. apply run_script.
  destruct (decide (c = 0)) as [->|Hc].
  - by eapply run_published.
  - by eapply run_push_failed.
Qed.

(** C2. When the credential variable is absent from the environment [main]
    reads, or empty there, the script prints its message and exits with
    status 1; it has started no command and the machine is as [load_dotenv]
    left it. *)
Theorem main_missing_credential `{Shell} o :
  credential o = None ∨ credential o = Some "" →
  main {| os := o; trace := [] |}
  = (Exit 1, {| os := load_dotenv_os o;
                trace := [EPrint "Error: NUGET_API_KEY environment variable is not set."] |})
  ∧ script o
    = (1, {| os := load_dotenv_os o;
             trace := [EPrint "Error: NUGET_API_KEY environment variable is not set."] |})
  ∧ ∀ command returncode, EShell command returncode ∉ trace (script o).2.
Proof.
  intros Hcred%truthy_false.
  assert (main {| os := o; trace := [] |}
          = (Exit 1, {| os := load_dotenv_os o;
                        trace := [EPrint "Error: NUGET_API_KEY environment variable is not set."] |}))
    as Hmain by (by rewrite main_credential, Hcred).
  split; [done|]. unfold script. rewrite Hmain.
  split; [done|]. cbn. intros command returncode Hin.
  by apply list_elem_of_singleton in Hin.
Qed.

Lemma main_missing_credential_witness :
  @script mock_toolchain bare_os
  = (1, {| os := load_dotenv_os bare_os;
           trace := [EPrint "Error: NUGET_API_KEY environment variable is not set."] |})
  ∧ @script mock_toolchain (with_credential "" bare_os)
    = (1, {| os := load_dotenv_os (with_credential "" bare_os);
             trace := [EPrint "Error: NUGET_API_KEY environment variable is not set."] |}).
Proof.
  split.
  - apply (@main_missing_credential mock_toolchain bare_os). left. reflexivity.
  - apply (@main_missing_credential mock_toolchain (with_credential "" bare_os)).
    right. reflexivity.
Defined.

(** C3, as the code has it.  A command that leaves a non-zero return code
    makes [run_command] call [sys.exit] with that very code.  In a run of
    the script, a step that failed is the last thing that happened, and the
    status of the process is the low eight bits of its code: the code itself
    when it lies between 1 and 255.  When the credential is there, build and
    pack succeed, an artifact is selected and the publish step succeeds, the
    status of the process is 0. *)
Theorem run_command_fail_fast `{Shell} :
  (∀ command s c o',
     subprocess_run command (os s) = (c, o') → c ≠ 0 →
     run_command command s
     = (Exit c, {| os := o'; trace := trace s ++ [EShell command c] |}))
  ∧ (∀ o command c,
       EShell command c ∈ trace (script o).2 → c ≠ 0 →
       exit_status o = c mod 256
       ∧ (0 < c < 256 → exit_status o = c)
       ∧ last (trace (script o).2) = Some (EShell command c))
  ∧ (∀ o k o1 o2 p o3,
       credential o = Some k → k ≠ "" →
       subprocess_run build_command (load_dotenv_os o) = (0, o1) →
       subprocess_run pack_command o1 = (0, o2) →
       selected o2 = Ret p →
       subprocess_run (push_command p k) o2 = (0, o3) →
       exit_status o = 0).
Proof.
  split; [|split].
  - intros command s c o' Hrun Hc. by apply run_command_failed.
  - intros o command c Hin Hc.
    assert ((script o).1 = c
            ∧ last (trace (script o).2) = Some (EShell command c))
      as [Hcode Hlast].
    { destruct (script_run o); cbn in *;
        repeat (apply elem_of_cons in Hin as [Hin|Hin]; simplify_eq);
        try done; by apply not_elem_of_nil in Hin. }
    unfold exit_status, process_status. rewrite Hcode.
    split; [done|]. split; [|done].
    intros Hrange. by apply Z.mod_small; lia.
  - intros o k o1 o2 p o3 Hk Hne Hbuild Hpack Hsel%selected_Ret Hpush.
    unfold exit_status.
    by rewrite (proj1 (run_script o 0 _)
                  (run_published o k p o1 o2 o3 Hk Hne Hbuild Hpack Hsel Hpush)).
Qed.

Lemma run_command_fail_fast_witness :
  @run_command broken_build build_command {| os := tied_os; trace := [] |}
  = (Exit 3, {| os := tied_os; trace := [EShell build_command 3] |})
  ∧ @exit_status refusing_registry tied_os = 5
  ∧ @exit_status mock_toolchain (with_credential "abc123" bare_os) = 0.
Proof.
  destruct (@run_command_fail_fast broken_build) as (Hfail & _ & _).
  destruct (@run_command_fail_fast refusing_registry) as (_ & Hlast & _).
  destruct (@run_command_fail_fast mock_toolchain) as (_ & _ & Hzero).
  split; [|split].
  - apply (Hfail build_command {| os := tied_os; trace := [] |} 3 tied_os);
      [reflexivity|discriminate].
  - destruct (Hlast tied_os
                "dotnet nuget push src/Monads/bin/Release/b.nupkg -k abc123 -s https://api.nuget.org/v3/index.json"
                5) as (_ & Hsame & _); [|discriminate|].
    + vm_compute. do 3 right. left.
    + apply Hsame. lia.
  - eapply (Hzero (with_credential "abc123" bare_os) "abc123");
      [reflexivity|discriminate|reflexivity|reflexivity|reflexivity|reflexivity].
Defined.

(** Outside 1..255 the status of the process is not the return code: when
    the shell of the build step is killed by signal 9 its return code is -9,
    [sys.exit] is called with -9, and the process ends with status 247. *)
Lemma run_command_status_not_kept :
  @subprocess_run killed_build build_command (load_dotenv_os tied_os)
  = (-9, load_dotenv_os tied_os)
  ∧ (@run_command killed_build build_command
       {| os := load_dotenv_os tied_os; trace := [] |}).1 = Exit (-9)
  ∧ (@script killed_build tied_os).1 = -9
  ∧ @exit_status killed_build tied_os = 247
  ∧ @exit_status killed_build tied_os ≠ -9.
Proof. by repeat split. Qed.

(** C4. In a directory without any entry that carries the extension,
    [get_latest_package] prints its message and exits with status 1.  When
    that happens in a run of the script, after build and pack have succeeded,
    the exit status is 1 and the publish step has not been started. *)
Theorem get_latest_package_no_artifact `{Shell} :
  (∀ directory s,
     (∀ name, name ∈ scandir (os s) directory → ¬ has_extension ".nupkg" name) →
     get_latest_package directory s
     = (Exit 1, {| os := os s;
                   trace := trace s ++ [EScan directory;
                                        EPrint "Error: No .nupkg files found."] |}))
  ∧ (∀ o k o1 o2,
       credential o = Some k → k ≠ "" →
       subprocess_run build_command (load_dotenv_os o) = (0, o1) →
       subprocess_run pack_command o1 = (0, o2) →
       (∀ name, name ∈ scandir o2 release_directory →
                ¬ has_extension ".nupkg" name) →
       script o
       = (1, {| os := o2;
                trace := [EShell build_command 0; EShell pack_command 0;
                          EScan release_directory;
                          EPrint "Error: No .nupkg files found."] |})
       ∧ ∀ e, e ∈ trace (script o).2 → is_push e = false).
Proof.
  split.
  - intros directory s Hnone%glob_os_nil. by apply get_latest_package_empty.
  - intros o k o1 o2 Hk Hne Hbuild Hpack Hnone%glob_os_nil.
    assert (truthy (credential o) = true) as Hcred
      by (apply truthy_Some; eauto).
    pose proof (run_no_artifact o o1 o2 Hcred Hbuild Hpack Hnone) as Hrun.
    apply run_script in Hrun. rewrite Hrun. split; [done|].
    cbn. intros e He.
    repeat (apply elem_of_cons in He as [->|He]; [done|]).
    by apply not_elem_of_nil in He.
Qed.

Lemma get_latest_package_no_artifact_witness :
  get_latest_package release_directory {| os := bare_os; trace := [] |}
  = (Exit 1, {| os := bare_os;
                trace := [EScan release_directory;
                          EPrint "Error: No .nupkg files found."] |})
  ∧ (@script idle_toolchain (with_credential "abc123" bare_os)).1 = 1.
Proof.
  destruct (@get_latest_package_no_artifact idle_toolchain) as [Hsel Hmain].
  split.
  - apply (Hsel release_directory {| os := bare_os; trace := [] |}).
    intros name Hin. vm_compute in Hin. by apply not_elem_of_nil in Hin.
  - destruct (Hmain (with_credential "abc123" bare_os) "abc123"
                (load_dotenv_os (with_credential "abc123" bare_os))
                (load_dotenv_os (with_credential "abc123" bare_os)))
      as [Hscript _];
      [reflexivity|discriminate|reflexivity|reflexivity| |].
    + intros name Hin. vm_compute in Hin. by apply not_elem_of_nil in Hin.
    + by rewrite Hscript.
Defined.

(** C5. A run that ends with status 0 has done exactly this, in this order:
    the build step, the pack step on the machine the build left, the scan of
    the release directory on the machine the pack left, and the publish step
    with the selected path and the credential, each with return code 0. *)
Theorem script_success_sequence `{Shell} o :
  (script o).1 = 0 →
  ∃ k p o1 o2 o3,
    credential o = Some k ∧ k ≠ ""
    ∧ subprocess_run build_command (load_dotenv_os o) = (0, o1)
    ∧ subprocess_run pack_command o1 = (0, o2)
    ∧ selected o2 = Ret p
    ∧ subprocess_run (push_command p k) o2 = (0, o3)
    ∧ (script o).2
      = {| os := o3;
           trace := [EShell build_command 0; EShell pack_command 0;
                     EScan release_directory;
                     EShell (push_command p k) 0] |}.
Proof.
  intros Hzero.
  destruct (script_run o) as [| | | | | |k p o1 o2 o3 Hk Hne Hbuild Hpack Hmax Hpush];
    try done.
  exists k, p, o1, o2, o3. by rewrite selected_Ret.
Qed.

Lemma script_success_sequence_witness :
  trace (@script mock_toolchain (with_credential "abc123" bare_os)).2
  = [EShell "dotnet build -c Release src/" 0;
     EShell "dotnet pack -c Release src/" 0;
     EScan "src/Monads/bin/Release";
     EShell "dotnet nuget push src/Monads/bin/Release/pkg-1.0.0.nupkg -k abc123 -s https://api.nuget.org/v3/index.json" 0].
Proof.
  destruct (@script_success_sequence mock_toolchain
              (with_credential "abc123" bare_os))
    as (k & p & o1 & o2 & o3 & Hk & _ & Hbuild & Hpack & Hsel & _ & Htrace);
    [reflexivity|].
  reflexivity.
Defined.

(** C6. A run whose build step leaves a non-zero return code consists of
    that step alone: the script exits with the code, and neither the pack
    step, nor the scan, nor the publish step has been started. *)
Theorem script_build_failed `{Shell} o c :
  EShell build_command c ∈ trace (script o).2 → c ≠ 0 →
  (script o).1 = c
  ∧ trace (script o).2 = [EShell build_command c]
  ∧ os (script o).2 = (subprocess_run build_command (load_dotenv_os o)).2.
Proof.
  intros Hin Hc.
  destruct (script_run o) as [| ? ? ? Hbuild | | | | |]; cbn in *;
    repeat (apply elem_of_cons in Hin as [Hin|Hin]; simplify_eq);
    try done; try (by apply not_elem_of_nil in Hin).
  by rewrite Hbuild.
Qed.

Lemma script_build_failed_witness :
  (@script broken_build tied_os).1 = 3
  ∧ trace (@script broken_build tied_os).2 = [EShell build_command 3].
Proof.
  destruct (@script_build_failed broken_build tied_os 3) as (Hstatus & Htrace & _).
  - vm_compute. left.
  - discriminate.
  - by split.
Defined.

(** C7. There is a run with the credential [abc123] in which build and pack
    succeed and leave one matching file in the release directory: the publish
    step is started once, its command contains the path of that file and the
    credential, and the script ends with status 0. *)
Theorem end_to_end_publish :
  ∃ (toolchain : Shell) (o o1 o2 : OS) (artifact : string),
    environ o !! "NUGET_API_KEY" = Some "abc123"
    ∧ toolchain build_command (load_dotenv_os o) = (0, o1)
    ∧ toolchain pack_command o1 = (0, o2)
    ∧ candidates o2 = [artifact]
    ∧ st_type o2 artifact = Regular
    ∧ (@script toolchain o).1 = 0
    ∧ ∃ command,
        List.filter is_push (trace (@script toolchain o).2) = [EShell command 0]
        ∧ (∃ pre post, command = pre ++ artifact ++ post)
        ∧ (∃ pre post, command = pre ++ "abc123" ++ post).
Proof.
  exists mock_toolchain, (with_credential "abc123" bare_os).
  eexists _, _, "src/Monads/bin/Release/pkg-1.0.0.nupkg".
  repeat (split; [reflexivity|]).
  eexists. split; [reflexivity|]. split.
  - by exists "dotnet nuget push ", " -k abc123 -s https://api.nuget.org/v3/index.json".
  - by exists "dotnet nuget push src/Monads/bin/Release/pkg-1.0.0.nupkg -k ",
              " -s https://api.nuget.org/v3/index.json".
Qed.

(** C9, as the code has it.  Entries are selected by name alone.  In a
    directory that holds a subdirectory carrying the extension and no regular
    file carrying it, and where [os.path.getctime] succeeds on every entry
    carrying it, [get_latest_package] still returns a path, that of an entry
    that is no regular file, and the subdirectory's own path when it is newer
    than every other matching entry.  In a run of the script that path is
    the one in the text of the publish command. *)
Theorem get_latest_package_selects_directory `{Shell} :
  (∀ directory s sub,
     sub ∈ scandir (os s) directory →
     has_extension ".nupkg" sub →
     st_type (os s) (joinpath directory sub) = Directory →
     (∀ name, name ∈ scandir (os s) directory →
              has_extension ".nupkg" name →
              st_type (os s) (joinpath directory name) ≠ Regular) →
     (∀ name, name ∈ scandir (os s) directory →
              has_extension ".nupkg" name →
              is_Some (st_ctime (os s) (joinpath directory name))) →
     ∃ p,
       get_latest_package directory s = (Ret p, emit (EScan directory) s)
       ∧ st_type (os s) p ≠ Regular
       ∧ ((∀ name, name ∈ scandir (os s) directory →
                   has_extension ".nupkg" name → name ≠ sub →
                   ∃ tn tsub,
                     st_ctime (os s) (joinpath directory name) = Some tn
                     ∧ st_ctime (os s) (joinpath directory sub) = Some tsub
                     ∧ tn < tsub) →
          p = joinpath directory sub))
  ∧ (∀ o k o1 o2 sub,
       credential o = Some k → k ≠ "" →
       subprocess_run build_command (load_dotenv_os o) = (0, o1) →
       subprocess_run pack_command o1 = (0, o2) →
       sub ∈ scandir o2 release_directory →
       has_extension ".nupkg" sub →
       st_type o2 (joinpath release_directory sub) = Directory →
       (∀ name, name ∈ scandir o2 release_directory →
                has_extension ".nupkg" name →
                st_type o2 (joinpath release_directory name) ≠ Regular) →
       (∀ name, name ∈ scandir o2 release_directory →
                has_extension ".nupkg" name →
                is_Some (st_ctime o2 (joinpath release_directory name))) →
       ∃ p c o3,
         selected o2 = Ret p
         ∧ st_type o2 p ≠ Regular
         ∧ subprocess_run
             ("dotnet nuget push " ++ p ++ " -k " ++ k
                ++ " -s https://api.nuget.org/v3/index.json") o2 = (c, o3)
         ∧ trace (script o).2
           = [EShell "dotnet build -c Release src/" 0;
              EShell "dotnet pack -c Release src/" 0;
              EScan "src/Monads/bin/Release";
              EShell ("dotnet nuget push " ++ p ++ " -k " ++ k
                        ++ " -s https://api.nuget.org/v3/index.json") c]).
Proof.
  assert (∀ directory s sub,
     sub ∈ scandir (os s) directory →
     has_extension ".nupkg" sub →
     (∀ name, name ∈ scandir (os s) directory →
              has_extension ".nupkg" name →
              st_type (os s) (joinpath directory name) ≠ Regular) →
     (∀ name, name ∈ scandir (os s) directory →
              has_extension ".nupkg" name →
              is_Some (st_ctime (os s) (joinpath directory name))) →
     ∃ p,
       get_latest_package directory s = (Ret p, emit (EScan directory) s)
       ∧ st_type (os s) p ≠ Regular
       ∧ ((∀ name, name ∈ scandir (os s) directory →
                   has_extension ".nupkg" name → name ≠ sub →
                   ∃ tn tsub,
                     st_ctime (os s) (joinpath directory name) = Some tn
                     ∧ st_ctime (os s) (joinpath directory sub) = Some tsub
                     ∧ tn < tsub) →
          p = joinpath directory sub)) as Hselect.
  { intros directory s sub Hin Hext Hnone Hstat.
    assert (glob_os (os s) directory "*.nupkg" ≠ []) as Hne.
    { intros Hnil. by eapply glob_os_nil. }
    destruct (get_latest_package_greatest directory s Hne)
      as (p & tp & Hret & Hp & Htp & Hle).
    { intros q (name & -> & Hname & Hname_ext)%elem_of_glob_os.
      by apply Hstat. }
    apply elem_of_glob_os in Hp as (name & -> & Hname & Hname_ext).
    exists (joinpath directory name). split; [done|].
    split; [by apply Hnone|].
    intros Hnewer. destruct (decide (name = sub)) as [->|Hother]; [done|].
    destruct (Hnewer name Hname Hname_ext Hother)
      as (tn & tsub & Htn & Htsub & Hlt).
    assert (joinpath directory sub ∈ glob_os (os s) directory "*.nupkg") as Hsub
      by (apply elem_of_glob_os; eauto).
    destruct (Hle _ Hsub) as (tsub' & Htsub' & Hle').
    simplify_eq. lia. }
  split.
  - intros directory s sub Hin Hext _ Hnone Hstat. by apply Hselect.
  - intros o k o1 o2 sub Hk Hne Hbuild Hpack Hin Hext _ Hnone Hstat.
    destruct (Hselect release_directory {| os := o2; trace := [] |} sub
                Hin Hext Hnone Hstat)
      as (p & Hret & Hkind & _).
    assert (selected o2 = Ret p) as Hsel by (unfold selected; by rewrite Hret).
    destruct (script_reaches_publish o k o1 o2 p Hk Hne Hbuild Hpack Hsel)
      as (c & o3 & Hpush & Hscript).
    exists p, c, o3. rewrite Hscript. done.
Qed.

Lemma get_latest_package_selects_directory_witness :
  get_latest_package release_directory {| os := subdir_os; trace := [] |}
  = (Ret "src/Monads/bin/Release/old.nupkg",
     {| os := subdir_os; trace := [EScan release_directory] |})
  ∧ trace (@script idle_toolchain subdir_os).2
    = [EShell "dotnet build -c Release src/" 0;
       EShell "dotnet pack -c Release src/" 0;
       EScan "src/Monads/bin/Release";
       EShell "dotnet nuget push src/Monads/bin/Release/old.nupkg -k abc123 -s https://api.nuget.org/v3/index.json" 0].
Proof.
  destruct (@get_latest_package_selects_directory idle_toolchain) as [Hsel Hmain].
  assert (∀ name, name ∈ scandir subdir_os release_directory →
                  has_extension ".nupkg" name → name = "old.nupkg")
    as Hnames.
  { intros name Hin Hext%fnmatch_nupkg. vm_compute in Hin.
    apply elem_of_cons in Hin as [->|Hin];
      [discriminate Hext|by apply list_elem_of_singleton in Hin]. }
  assert (∀ name, name ∈ scandir subdir_os release_directory →
                  has_extension ".nupkg" name →
                  st_type subdir_os (joinpath release_directory name) ≠ Regular)
    as Hnone.
  { intros name Hin Hext. by rewrite (Hnames name Hin Hext). }
  assert (∀ name, name ∈ scandir subdir_os release_directory →
                  has_extension ".nupkg" name →
                  is_Some (st_ctime subdir_os (joinpath release_directory name)))
    as Hstat.
  { intros name Hin Hext. rewrite (Hnames name Hin Hext). by eexists. }
  split.
  - destruct (Hsel release_directory {| os := subdir_os; trace := [] |} "old.nupkg")
      as (p & Hret & _ & Hp);
      [vm_compute; right; left|by exists "old"|reflexivity|done|done|].
    rewrite Hret, Hp; [reflexivity|].
    intros name Hin Hext Hother. by destruct (Hother (Hnames name Hin Hext)).
  - destruct (Hmain subdir_os "abc123" (load_dotenv_os subdir_os)
                (load_dotenv_os subdir_os) "old.nupkg")
      as (p & c & o3 & Hp & _ & Hpush & Htrace);
      [reflexivity|discriminate|reflexivity|reflexivity|vm_compute; right; left
      |by exists "old"|reflexivity|done|done|].
    vm_compute in Hp. injection Hp as <-.
    injection Hpush as <- _. exact Htrace.
Defined.

(** Without the condition on [os.path.getctime] the property fails: next to
    a subdirectory carrying the extension, a symbolic link of a matching name
    that leads nowhere is no regular file either, and then
    [get_latest_package] returns no path and the script ends before the
    publish step. *)
Lemma get_latest_package_subdirectory_and_dangling_link :
  "old.nupkg" ∈ scandir dangling_subdir_os release_directory
  ∧ has_extension ".nupkg" "old.nupkg"
  ∧ st_type dangling_subdir_os (joinpath release_directory "old.nupkg") = Directory
  ∧ (∀ name, name ∈ scandir dangling_subdir_os release_directory →
             st_type dangling_subdir_os (joinpath release_directory name) ≠ Regular)
  ∧ get_latest_package release_directory
      {| os := dangling_subdir_os; trace := [] |}
    = (Raise "OSError",
       {| os := dangling_subdir_os; trace := [EScan release_directory] |})
  ∧ @script idle_toolchain dangling_subdir_os
    = (1, {| os := load_dotenv_os dangling_subdir_os;
             trace := [EShell build_command 0; EShell pack_command 0;
                       EScan release_directory] |}).
Proof.
  split; [vm_compute; left|]. split; [by exists "old"|].
  split; [reflexivity|]. split; [|by split].
  intros name Hin. vm_compute in Hin.
  apply elem_of_cons in Hin as [->|Hin];
    [|apply list_elem_of_singleton in Hin as ->]; by vm_compute.
Qed.

(** C10. The command of the publish step is the text
    [dotnet nuget push ], the selected path, [ -k ], the credential and
    [ -s https://api.nuget.org/v3/index.json], joined as they are: neither
    the path nor the credential is quoted or escaped. *)
Theorem publish_command_text `{Shell} o k o1 o2 p :
  credential o = Some k → k ≠ "" →
  subprocess_run build_command (load_dotenv_os o) = (0, o1) →
  subprocess_run pack_command o1 = (0, o2) →
  selected o2 = Ret p →
  ∃ c o3,
    subprocess_run
      ("dotnet nuget push " ++ p ++ " -k " ++ k
         ++ " -s https://api.nuget.org/v3/index.json") o2 = (c, o3)
    ∧ script o
      = (c, {| os := o3;
               trace := [EShell "dotnet build -c Release src/" 0;
                         EShell "dotnet pack -c Release src/" 0;
                         EScan "src/Monads/bin/Release";
                         EShell ("dotnet nuget push " ++ p ++ " -k " ++ k
                                   ++ " -s https://api.nuget.org/v3/index.json") c] |}).
Proof.
  intros Hk Hne Hbuild Hpack Hsel.
  exact (script_reaches_publish o k o1 o2 p Hk Hne Hbuild Hpack Hsel).
Qed.

Lemma publish_command_text_witness :
  trace (@script mock_toolchain (with_credential "abc 123; id" bare_os)).2
  = [EShell "dotnet build -c Release src/" 0;
     EShell "dotnet pack -c Release src/" 0;
     EScan "src/Monads/bin/Release";
     EShell "dotnet nuget push src/Monads/bin/Release/pkg-1.0.0.nupkg -k abc 123; id -s https://api.nuget.org/v3/index.json" 0].
Proof.
  destruct (@publish_command_text mock_toolchain
              (with_credential "abc 123; id" bare_os) "abc 123; id"
              (load_dotenv_os (with_credential "abc 123; id" bare_os))
              (with_entry "pkg-1.0.0.nupkg" Regular 100
                 (load_dotenv_os (with_credential "abc 123; id" bare_os)))
              "src/Monads/bin/Release/pkg-1.0.0.nupkg")
    as (c & o3 & Hpush & Hscript);
    [reflexivity|discriminate|reflexivity|reflexivity|reflexivity|].
  injection Hpush as <- _. by rewrite Hscript.
Defined.

(** ** The credential and the [.env] file *)

(** The variable of the [.env] file never replaces one the environment
    already has, not even an empty one. *)
Lemma credential_environ o v :
  environ o !! "NUGET_API_KEY" = Some v → credential o = Some v.
Proof.
  intros Henv. unfold credential, load_dotenv_os. cbn.
  destruct (dotenv_disabled o); [done|]. by apply lookup_union_Some_l.
Qed.

(** A variable the environment lacks is taken from the [.env] file, unless
    python-dotenv is switched off. *)
Lemma credential_dotenv o :
  dotenv_disabled o = false →
  environ o !! "NUGET_API_KEY" = None →
  credential o = dotenv_values o !! "NUGET_API_KEY".
Proof.
  intros Hon Henv. unfold credential, load_dotenv_os. cbn. rewrite Hon.
  by rewrite lookup_union_r.
Qed.

Lemma credential_disabled o :
  dotenv_disabled o = true →
  credential o = environ o !! "NUGET_API_KEY".
Proof. intros Hoff. unfold credential, load_dotenv_os. cbn. by rewrite Hoff. Qed.

Example dotenv_supplies_credential :
  environ dotenv_os !! "NUGET_API_KEY" = None
  ∧ credential dotenv_os = Some "abc123"
  ∧ (@script mock_toolchain dotenv_os).1 = 0
  ∧ trace (@script mock_toolchain dotenv_os).2
    = [EShell build_command 0; EShell pack_command 0;
       EScan release_directory;
       EShell (push_command "src/Monads/bin/Release/pkg-1.0.0.nupkg" "abc123") 0].
Proof. by repeat split. Qed.

Example empty_variable_not_replaced :
  credential empty_variable_os = Some "".
Proof. reflexivity. Qed.

Example disabled_dotenv_not_read :
  credential disabled_dotenv_os = None
  ∧ (@script mock_toolchain disabled_dotenv_os).1 = 1.
Proof. by split. Qed.

(** * Further properties of the driver *)

(** ** Exceptions *)



(** ** What a run may contain *)

(** X2. The publish step is started only after the build step and the pack
    step have both returned 0 and the release directory has been scanned; it
    is then the last thing the run does, so a run publishes at most once. *)
Theorem publish_only_after_build_and_pack `{Shell} o e :
  e ∈ trace (script o).2 → is_push e = true →
  trace (script o).2
  = [EShell build_command 0; EShell pack_command 0;
     EScan release_directory; e].
Proof.
  intros Hin Hpush.
  destruct (script_run o); cbn in *;
    repeat (apply elem_of_cons in Hin as [->|Hin]; try done);
    by apply not_elem_of_nil in Hin.
Qed.

Lemma publish_only_after_build_and_pack_witness :
  trace (@script refusing_registry tied_os).2
  = [EShell build_command 0; EShell pack_command 0;
     EScan release_directory;
     EShell (push_command "src/Monads/bin/Release/b.nupkg" "abc123") 5].
Proof.
  apply (@publish_only_after_build_and_pack refusing_registry tied_os
           (EShell (push_command "src/Monads/bin/Release/b.nupkg" "abc123") 5)).
  - vm_compute. do 3 right. left.
  - reflexivity.
Defined.

(** X3. A run whose pack step leaves a non-zero return code consists of the
    successful build step and that pack step: neither the scan nor the
    publish step has been started, and the process ends with the low eight
    bits of the code as its status, the code itself when it lies between 1
    and 255. *)
Theorem script_pack_failed `{Shell} o c :
  EShell pack_command c ∈ trace (script o).2 → c ≠ 0 →
  trace (script o).2 = [EShell build_command 0; EShell pack_command c]
  ∧ exit_status o = c mod 256
  ∧ (0 < c < 256 → exit_status o = c).
Proof.
  intros Hin Hc.
  assert ((script o).1 = c
          ∧ trace (script o).2 = [EShell build_command 0; EShell pack_command c])
    as [Hcode Htrace].
  { destruct (script_run o); cbn in *;
      repeat (apply elem_of_cons in Hin as [Hin|Hin]; simplify_eq);
      try done; by apply not_elem_of_nil in Hin. }
  split; [done|]. unfold exit_status, process_status. rewrite Hcode.
  split; [done|]. intros Hrange. by apply Z.mod_small; lia.
Qed.

Lemma script_pack_failed_witness :
  trace (@script broken_pack tied_os).2
  = [EShell build_command 0; EShell pack_command 4]
  ∧ @exit_status broken_pack tied_os = 4.
Proof.
  destruct (@script_pack_failed broken_pack tied_os 4) as (Htrace & _ & Hsame).
  - vm_compute. right. left.
  - discriminate.
  - split; [exact Htrace|]. apply Hsame. lia.
Defined.

(** X4. Whatever a run publishes is an entry of the release directory, as
    the pack step left it, whose name ends in [.nupkg]; the key it passes is
    the non-empty credential [main] has read. *)
Theorem published_artifact `{Shell} o command c :
  EShell command c ∈ trace (script o).2 →
  is_push (EShell command c) = true →
  ∃ name k,
    command = push_command (joinpath release_directory name) k
    ∧ has_extension ".nupkg" name
    ∧ name ∈ scandir
               (subprocess_run pack_command
                  (subprocess_run build_command (load_dotenv_os o)).2).2
               release_directory
    ∧ credential o = Some k ∧ k ≠ "".
Proof.
  intros Hin Hpush.
  destruct (script_run o)
    as [| | | | |k c' p o1 o2 o3 Hk Hne Hbuild Hpack Hmax
             |k p o1 o2 o3 Hk Hne Hbuild Hpack Hmax]; cbn in *;
    repeat (apply elem_of_cons in Hin as [Hin|Hin]; simplify_eq);
    try done; try (by apply not_elem_of_nil in Hin);
    apply py_max_Ret in Hmax as [Hmax _];
    apply elem_of_glob_os in Hmax as (name & -> & Hname & Hext);
    exists name, k; rewrite Hbuild; cbn; rewrite Hpack; done.
Qed.

Lemma published_artifact_witness :
  ∃ name k,
    "dotnet nuget push src/Monads/bin/Release/pkg-1.0.0.nupkg -k abc123 -s https://api.nuget.org/v3/index.json"
    = push_command (joinpath release_directory name) k
    ∧ has_extension ".nupkg" name.
Proof.
  destruct (@published_artifact mock_toolchain (with_credential "abc123" bare_os)
              "dotnet nuget push src/Monads/bin/Release/pkg-1.0.0.nupkg -k abc123 -s https://api.nuget.org/v3/index.json"
              0)
    as (name & k & Hcommand & Hext & _).
  - vm_compute. do 3 right. left.
  - reflexivity.
  - by exists name, k.
Defined.

(** X5. The commands of a run are an initial part of: build, pack, publish.
    No other command is ever started, none is started twice, and none is
    started out of turn. *)
Theorem commands_in_order `{Shell} o :
  ∃ p k,
    commands (trace (script o).2)
    `prefix_of` [build_command; pack_command; push_command p k].
Proof.
  destruct (script_run o) as [| | | | |k c p|k p]; cbn.
  - exists "", "". by eexists.
  - exists "", "". by eexists.
  - exists "", "". by eexists.
  - exists "", "". by eexists.
  - exists "", "". by eexists.
  - exists p, k. by exists [].
  - exists p, k. by exists [].
Qed.

(** X8. The script prints a message of its own only when the credential or
    the artifact is missing: the message is then the last thing that happens,
    the exit status is 1 and every command started before had returned 0.
    When a command fails the script prints nothing. *)
Theorem messages_only_on_own_exit `{Shell} o :
  (∀ m, EPrint m ∈ trace (script o).2 →
        (script o).1 = 1
        ∧ last (trace (script o).2) = Some (EPrint m)
        ∧ (m = "Error: NUGET_API_KEY environment variable is not set."
           ∨ m = "Error: No .nupkg files found.")
        ∧ ∀ command c, EShell command c ∈ trace (script o).2 → c = 0)
  ∧ (∀ command c m,
       EShell command c ∈ trace (script o).2 → c ≠ 0 →
       EPrint m ∉ trace (script o).2).
Proof.
  assert (∀ m, EPrint m ∈ trace (script o).2 →
        (script o).1 = 1
        ∧ last (trace (script o).2) = Some (EPrint m)
        ∧ (m = "Error: NUGET_API_KEY environment variable is not set."
           ∨ m = "Error: No .nupkg files found.")
        ∧ ∀ command c, EShell command c ∈ trace (script o).2 → c = 0)
    as Hprint.
  { intros m Hin.
    destruct (script_run o); cbn in *;
      repeat (apply elem_of_cons in Hin as [Hin|Hin]; simplify_eq);
      try (by apply not_elem_of_nil in Hin);
      (split; [done|]); (split; [done|]); (split; [by eauto|]);
      intros command c' Hcmd;
      repeat (apply elem_of_cons in Hcmd as [Hcmd|Hcmd]; simplify_eq);
      try done; by apply not_elem_of_nil in Hcmd. }
  split; [done|].
  intros command c m Hcmd Hc Hin.
  destruct (Hprint m Hin) as (_ & _ & _ & Hzero).
  by apply Hc, (Hzero command).
Qed.

Lemma messages_only_on_own_exit_witness :
  (@script idle_toolchain (with_credential "abc123" bare_os)).1 = 1
  ∧ EPrint "Error: No .nupkg files found." ∉ trace (@script broken_build tied_os).2.
Proof.
  destruct (@messages_only_on_own_exit idle_toolchain
              (with_credential "abc123" bare_os)) as [Hprint _].
  destruct (@messages_only_on_own_exit broken_build tied_os) as [_ Hsilent].
  split.
  - apply (Hprint "Error: No .nupkg files found."). vm_compute. do 3 right. left.
  - apply (Hsilent build_command 3); [vm_compute; left|discriminate].
Defined.

(** X9. The exit status is 0 exactly when the last thing the run did is a
    publish command that returned 0. *)
Theorem script_status_zero `{Shell} o :
  (script o).1 = 0 ↔
  ∃ command,
    last (trace (script o).2) = Some (EShell command 0)
    ∧ is_push (EShell command 0) = true.
Proof.
  split.
  - intros Hzero. destruct (script_run o) as [| | | | | |k p]; try done.
    exists (push_command p k). split; [done|]. by destruct p.
  - intros (command & Hlast & Hpush).
    destruct (script_run o); cbn in *; by simplify_eq.
Qed.

(** ** What selection looks at *)

Lemma max_from_ext_in {A} (key key' : A → result Z) maxitem maxval rest :
  (∀ x, x ∈ rest → key x = key' x) →
  max_from key maxitem maxval rest = max_from key' maxitem maxval rest.
Proof.
  revert maxitem maxval.
  induction rest as [|x rest IH]; intros maxitem maxval Hext; [done|].
  cbn. rewrite (Hext x) by left.
  assert (∀ y, y ∈ rest → key y = key' y)
    by (intros y Hy; apply Hext; by right).
  destruct (key' x) as [val| |]; [|done..].
  destruct (val >? maxval); by apply IH.
Qed.

(** X6. What [get_latest_package] returns depends on the matching entries and
    on their timestamps only: entries of other names, however new, and the
    rest of the machine make no difference. *)
Theorem get_latest_package_ignores_other_entries directory s s' :
  glob_os (os s) directory "*.nupkg" = glob_os (os s') directory "*.nupkg" →
  (∀ q, q ∈ glob_os (os s) directory "*.nupkg" →
        st_ctime (os s) q = st_ctime (os s') q) →
  (get_latest_package directory s).1 = (get_latest_package directory s').1.
Proof.
  intros Hglob Hctime. rewrite Hglob in Hctime.
  destruct (decide (glob_os (os s') directory "*.nupkg" = [])) as [Hnil|Hne].
  - rewrite (get_latest_package_empty _ s) by (by rewrite Hglob).
    by rewrite (get_latest_package_empty _ s') by done.
  - rewrite (get_latest_package_max _ s) by (by rewrite Hglob).
    rewrite (get_latest_package_max _ s') by done.
    cbn. rewrite Hglob.
    destruct (glob_os (os s') directory "*.nupkg") as [|q qs]; [done|].
    assert (∀ x, x ∈ q :: qs → getctime_os (os s) x = getctime_os (os s') x)
      as Hkey by (intros x Hx; unfold getctime_os; by rewrite Hctime).
    cbn. rewrite (Hkey q) by left.
    destruct (getctime_os (os s') q); [|done..].
    apply max_from_ext_in. intros x Hx. apply Hkey. by right.
Qed.

Lemma get_latest_package_ignores_other_entries_witness :
  st_ctime tied_os "src/Monads/bin/Release/notes.txt" = Some 50
  ∧ (get_latest_package release_directory {| os := tied_os; trace := [] |}).1
    = (get_latest_package release_directory
         {| os := packages_only_os; trace := [EPrint "earlier"] |}).1.
Proof.
  split; [reflexivity|].
  apply (get_latest_package_ignores_other_entries release_directory
           {| os := tied_os; trace := [] |}
           {| os := packages_only_os; trace := [EPrint "earlier"] |}).
  - reflexivity.
  - intros q Hq. vm_compute in Hq.
    repeat (apply elem_of_cons in Hq as [->|Hq]; [reflexivity|]).
    by apply not_elem_of_nil in Hq.
Defined.

(** ** Where the credential comes from *)

(** X7. [load_dotenv()] never replaces a variable the environment has.  So an
    empty variable in the environment ends the script with status 1 whatever
    the [.env] file holds, and a variable of the environment is the key of
    any publish command.  When the environment lacks the variable, the value
    of the file lets the build step start, unless python-dotenv is switched
    off: then the script ends with status 1 as if there were no file. *)
Theorem environment_wins_over_dotenv `{Shell} o :
  (environ o !! "NUGET_API_KEY" = Some "" →
   script o
   = (1, {| os := load_dotenv_os o;
            trace := [EPrint "Error: NUGET_API_KEY environment variable is not set."] |}))
  ∧ (∀ k command c,
       environ o !! "NUGET_API_KEY" = Some k →
       EShell command c ∈ trace (script o).2 →
       is_push (EShell command c) = true →
       ∃ p, command = push_command p k)
  ∧ (∀ k,
       dotenv_disabled o = false →
       environ o !! "NUGET_API_KEY" = None →
       dotenv_values o !! "NUGET_API_KEY" = Some k → k ≠ "" →
       ∃ c, head (trace (script o).2) = Some (EShell build_command c))
  ∧ (dotenv_disabled o = true →
     environ o !! "NUGET_API_KEY" = None →
     script o
     = (1, {| os := load_dotenv_os o;
              trace := [EPrint "Error: NUGET_API_KEY environment variable is not set."] |})).
Proof.
  split; [|split; [|split]].
  - intros Henv%credential_environ. apply run_script.
    apply run_missing_credential. by rewrite Henv.
  - intros k command c Henv%credential_environ Hin Hpush.
    destruct (script_run o)
      as [| | | | |k' c' p o1 o2 o3 Hk|k' p o1 o2 o3 Hk]; cbn in *;
      repeat (apply elem_of_cons in Hin as [Hin|Hin]; simplify_eq);
      try done; try (by apply not_elem_of_nil in Hin);
      by exists p.
  - intros k Hon Henv Hfile Hne.
    assert (truthy (credential o) = true) as Hcred.
    { apply truthy_Some. exists k. by rewrite credential_dotenv. }
    destruct (script_run o) as [Hmissing| | | | | |]; cbn;
      [by rewrite Hcred in Hmissing|by eauto..].
  - intros Hoff Henv. apply run_script.
    apply run_missing_credential. by rewrite credential_disabled, Henv.
Qed.

Lemma environment_wins_over_dotenv_witness :
  (@script mock_toolchain empty_variable_os).1 = 1
  ∧ (∃ c, head (trace (@script mock_toolchain dotenv_os).2)
          = Some (EShell build_command c))
  ∧ (@script mock_toolchain disabled_dotenv_os).1 = 1.
Proof.
  destruct (@environment_wins_over_dotenv mock_toolchain empty_variable_os)
    as (Hempty & _ & _ & _).
  destruct (@environment_wins_over_dotenv mock_toolchain dotenv_os)
    as (_ & _ & Hfile & _).
  destruct (@environment_wins_over_dotenv mock_toolchain disabled_dotenv_os)
    as (_ & _ & _ & Hoff).
  split; [|split].
  - rewrite Hempty; reflexivity.
  - apply (Hfile "abc123"); [reflexivity|reflexivity|reflexivity|discriminate].
  - rewrite Hoff; reflexivity.
Defined.
